(** * The BGP-LS Multi-Topology ID TLV of exabgp

    A shallow embedding of
    [src/exabgp/bgp/message/update/nlri/bgpls/tlvs/multitopology.py]
    (RFC 7752, section 3.2.1.5) and the properties of its codec.

    Python values are modelled as follows.
    - [bytes] is a [list byte]; iterating it yields the integers 0..255.
    - Python integers are [Z]; [>>], [&], [|] and [<<] are [Z.shiftr],
      [Z.land], [Z.lor] and [Z.shiftl].
    - [str] is [string].
    - An exception is a value of [exception]; a call either returns or
      raises ([result]).
    - A [_Topology] instance is an object: it has an identity besides its
      two attributes.  The class defines no [__eq__], so [==] on two
      instances is the default identity comparison.  Instances are never
      mutated in this file, so an object is modelled as a record carrying
      its identity ([oid]) next to its attributes, and creating an
      instance draws a fresh identity from an allocation counter. *)

From Stdlib Require Import ZArith List Lia Bool Ascii String Strings.Byte.
From Stdlib Require Import Hexadecimal DecimalString DecimalPos DecimalZ.
Import ListNotations.

Local Open Scope Z_scope.

(** ** Exceptions and results *)

Inductive exception : Type :=
| struct_error (msg : string)
| RuntimeError (msg : string).

Inductive result (A : Type) : Type :=
| Return (a : A)
| Raise (e : exception).

Arguments Return {A} a.
Arguments Raise {A} e.

Definition result_bind {A B} (r : result A) (k : A -> result B) : result B :=
  match r with
  | Return a => k a
  | Raise e => Raise e
  end.

(** ** Object allocation

    [Alloc A] is a computation that may create objects (it threads the
    counter of the next fresh identity) and may raise. *)

Definition Alloc (A : Type) : Type := nat -> result A * nat.

Definition ret {A} (a : A) : Alloc A := fun st => (Return a, st).

Definition bind {A B} (c : Alloc A) (k : A -> Alloc B) : Alloc B :=
  fun st =>
    match c st with
    | (Return a, st') => k a st'
    | (Raise e, st') => (Raise e, st')
    end.

Definition lift {A} (r : result A) : Alloc A := fun st => (r, st).

Definition fresh : Alloc nat := fun st => (Return st, S st).

Declare Scope alloc_scope.
Delimit Scope alloc_scope with alloc.
Notation "x <- c ;; k" := (bind c (fun x => k))
  (at level 61, c at next level, right associativity) : alloc_scope.

(** ** Python built-ins used by the module *)

Definition bytes : Type := list byte.

(** The integer an iteration over [bytes] yields for one element. *)
Definition byte_int (b : byte) : Z := Z.of_N (Byte.to_N b).

(** [data[i:j]] for [0 <= i <= j]. *)
Definition slice (data : bytes) (i j : nat) : bytes :=
  firstn (j - i) (skipn i data).

(** [range(start, stop, step)] for a positive step. *)
Definition range (start stop step : nat) : list nat :=
  map (fun k => (start + k * step)%nat)
      (seq 0 ((stop - start + step - 1) / step)).

(** [struct.unpack('!H', buf)[0]]: one big-endian unsigned 16-bit integer;
    the buffer must hold exactly two bytes. *)
Definition be16 (hi lo : byte) : Z :=
  Z.lor (Z.shiftl (byte_int hi) 8) (byte_int lo).

Definition struct_unpack_H (buf : bytes) : result Z :=
  match buf with
  | [hi; lo] => Return (be16 hi lo)
  | _ => Raise (struct_error "unpack requires a buffer of 2 bytes")
  end.

(** [bin(n)]. *)
Fixpoint bin_digits (p : positive) : string :=
  match p with
  | xH => "1"
  | xO q => bin_digits q ++ "0"
  | xI q => bin_digits q ++ "1"
  end.

Definition bin (n : Z) : string :=
  match n with
  | Z0 => "0b0"
  | Zpos p => "0b" ++ bin_digits p
  | Zneg p => "-0b" ++ bin_digits p
  end.

(** [s[n:]] and [s[-n:]] for [n >= 0]. *)
Definition str_from (n : nat) (s : string) : string :=
  substring n (String.length s - n) s.

Definition str_last (n : nat) (s : string) : string :=
  str_from (String.length s - n) s.

(** ['%d' % n]. *)
Definition format_d (n : Z) : string :=
  NilZero.string_of_int (Z.to_int n).

(** ['%02X' % n] for [n >= 0]: upper-case hexadecimal digits, filled with
    zeros on the left up to two characters. *)
Fixpoint upper_hex (d : Hexadecimal.uint) : string :=
  match d with
  | Nil => EmptyString
  | D0 d => String "0" (upper_hex d)
  | D1 d => String "1" (upper_hex d)
  | D2 d => String "2" (upper_hex d)
  | D3 d => String "3" (upper_hex d)
  | D4 d => String "4" (upper_hex d)
  | D5 d => String "5" (upper_hex d)
  | D6 d => String "6" (upper_hex d)
  | D7 d => String "7" (upper_hex d)
  | D8 d => String "8" (upper_hex d)
  | D9 d => String "9" (upper_hex d)
  | Da d => String "A" (upper_hex d)
  | Db d => String "B" (upper_hex d)
  | Dc d => String "C" (upper_hex d)
  | Dd d => String "D" (upper_hex d)
  | De d => String "E" (upper_hex d)
  | Df d => String "F" (upper_hex d)
  end.

Fixpoint zeros (n : nat) : string :=
  match n with
  | O => EmptyString
  | S k => String "0" (zeros k)
  end.

Definition format_02X (n : Z) : string :=
  let digits := upper_hex (N.to_hex_uint (Z.to_N n)) in
  zeros (2 - String.length digits) ++ digits.

(** The double-quote character. *)
Definition dq : string := String "034"%char EmptyString.

(** ** class _Topology *)

Module _Topology.

Record t : Type := mk { oid : nat; bits : Z; tid : Z }.

(** [_Topology(bits, tid)]: a new object. *)
Definition new (bits tid : Z) : Alloc t :=
  (o <- fresh ;; ret (mk o bits tid))%alloc.

(** [x is y]. *)
Definition is_ (x y : t) : bool := Nat.eqb (oid x) (oid y).

(** [x == y]: the class has no [__eq__], the default compares
    identities. *)
Definition __eq__ (x y : t) : bool := is_ x y.

Definition json (self : t) : string :=
  "{ " ++ dq ++ "bits" ++ dq ++ ": " ++ dq
       ++ str_last 4 ("0000" ++ str_from 2 (bin (bits self))) ++ dq
       ++ ", " ++ dq ++ "multi-topology-id" ++ dq ++ ": "
       ++ format_d (tid self) ++ " }".

End _Topology.

(** [xs == ys] on two lists: equal lengths, and every pair of
    corresponding items is the same object or compares equal. *)
Fixpoint items_eq (xs ys : list _Topology.t) : bool :=
  match xs, ys with
  | x :: xs', y :: ys' =>
      (_Topology.is_ x y || _Topology.__eq__ x y) && items_eq xs' ys'
  | _, _ => true
  end.

Definition list_eq (xs ys : list _Topology.t) : bool :=
  if negb (Nat.eqb (List.length xs) (List.length ys)) then false
  else items_eq xs ys.

(** [len(None)] raises [TypeError]; the result of a call that returns a
    length or raises it. *)
Inductive len_result : Type :=
| Len (n : nat)
| TypeError (msg : string).

(** ** class MTID *)

Module MTID.

Record t : Type := mk {
  topologies : list _Topology.t;
  _packed : option bytes
}.

(** [MTID(topologies)], with [packed] left at its default [None]. *)
Definition init (topologies : list _Topology.t) : t := mk topologies None.

Fixpoint unpack_loop (data : bytes) (idx : list nat)
         (tids : list _Topology.t) : Alloc (list _Topology.t) :=
  match idx with
  | [] => ret tids
  | i :: idx' =>
      (payload <- lift (struct_unpack_H (slice data i (i + 2))) ;;
       let bits := Z.shiftr payload (16 - 4) in
       let tid := Z.land payload 0x0FFF in
       tp <- _Topology.new bits tid ;;
       unpack_loop data idx' (tids ++ [tp]))%alloc
  end.

Definition unpack (data : bytes) : Alloc t :=
  (tids <- unpack_loop data (range 0 (List.length data) 2) [] ;;
   ret (mk tids (Some data)))%alloc.

Definition json (self : t) : string :=
  let tids := String.concat ", " (map _Topology.json (topologies self)) in
  "[" ++ tids ++ "]".

Definition __eq__ (self other : t) : bool :=
  list_eq (topologies self) (topologies other).

Definition __neq__ (self other : t) : bool :=
  negb (list_eq (topologies self) (topologies other)).

Definition __lt__ (self other : t) : result bool :=
  Raise (RuntimeError "Not implemented").

Definition __le__ (self other : t) : result bool :=
  Raise (RuntimeError "Not implemented").

Definition __gt__ (self other : t) : result bool :=
  Raise (RuntimeError "Not implemented").

Definition __ge__ (self other : t) : result bool :=
  Raise (RuntimeError "Not implemented").

(** The truth value of [self._packed]: [None] and [b''] are false. *)
Definition truth (p : option bytes) : bool :=
  match p with
  | None => false
  | Some [] => false
  | Some (_ :: _) => true
  end.

Definition pack (self : t) : result bytes :=
  match _packed self with
  | Some p =>
      if truth (Some p) then Return p
      else Raise (RuntimeError "Not implemented")
  | None => Raise (RuntimeError "Not implemented")
  end.

Definition __str__ (self : t) : result string :=
  result_bind (pack self)
    (fun p => Return (String.concat ":" (map (fun b => format_02X (byte_int b)) p))).

Definition __repr__ (self : t) : result string := __str__ self.

Section Hash.

(** The built-in [hash] on [str]. *)
Variable hash : string -> Z.

Definition __hash__ (self : t) : result Z :=
  result_bind (__str__ self) (fun s => Return (hash s)).

End Hash.

Definition __len__ (self : t) : len_result :=
  match _packed self with
  | Some p => Len (List.length p)
  | None => TypeError "object of type 'NoneType' has no len()"
  end.

End MTID.

(** ** Expressions and reference definitions used in the statements *)

(** The expression [MTID.unpack(b1) == MTID.unpack(b2)]: the left operand
    is evaluated first, then the right one, then [__eq__] is called. *)
Definition eq_of_decodings (b1 b2 : bytes) : Alloc bool :=
  (a <- MTID.unpack b1 ;;
   b <- MTID.unpack b2 ;;
   ret (MTID.__eq__ a b))%alloc.

(** The expression [MTID.unpack(b).pack()]. *)
Definition pack_of_decoding (b : bytes) : Alloc bytes :=
  (m <- MTID.unpack b ;; lift (MTID.pack m))%alloc.

(** The entry the loop creates for the [i]-th word of [data] when the
    allocation counter stood at [st] before the loop. *)
Definition entry_at (data : bytes) (st i : nat) : _Topology.t :=
  let w := be16 (nth (2 * i) data x00) (nth (2 * i + 1) data x00) in
  _Topology.mk (st + i) (Z.shiftr w 12) (Z.land w 0x0FFF).

(** Structural equality of two entry sequences, in the words of the
    specification: equal length, and equal [bits] and equal [tid] at each
    position.  Not taken from the source. *)
Fixpoint structural_eq (xs ys : list _Topology.t) : bool :=
  match xs, ys with
  | [], [] => true
  | x :: xs', y :: ys' =>
      Z.eqb (_Topology.bits x) (_Topology.bits y)
      && Z.eqb (_Topology.tid x) (_Topology.tid y)
      && structural_eq xs' ys'
  | _, _ => false
  end.

(** A 4-bit value as exactly four binary digits, most significant first,
    in the words of the specification.  Not taken from the source. *)
Definition bit_char (b : bool) : ascii := if b then "1"%char else "0"%char.

Definition bits4_spec (n : Z) : string :=
  String (bit_char (Z.testbit n 3))
    (String (bit_char (Z.testbit n 2))
       (String (bit_char (Z.testbit n 1))
          (String (bit_char (Z.testbit n 0)) EmptyString))).

(** A byte as exactly two upper-case hexadecimal digits, high nibble
    first, in the words of the specification.  Not taken from the source. *)
Definition hex_char (n : Z) : ascii :=
  match String.get (Z.to_nat n) "0123456789ABCDEF" with
  | Some c => c
  | None => "F"%char
  end.

Definition hex2_spec (b : byte) : string :=
  String (hex_char (byte_int b / 16))
    (String (hex_char (byte_int b mod 16)) EmptyString).

(** The record [json] is to produce for an entry, given the text of its two
    members. *)
Definition json_record (bits_text tid_text : string) : string :=
  ("{ " ++ dq ++ "bits" ++ dq ++ ": " ++ dq ++ bits_text ++ dq ++ ", "
        ++ dq ++ "multi-topology-id" ++ dq ++ ": " ++ tid_text ++ " }")%string.

(** The two attributes of an entry, without its identity. *)
Definition fields (tp : _Topology.t) : Z * Z :=
  (_Topology.bits tp, _Topology.tid tp).

(** The [i]-th big-endian word of a payload. *)
Definition word_at (data : bytes) (i : nat) : Z :=
  be16 (nth (2 * i) data x00) (nth (2 * i + 1) data x00).

(** Reading two hexadecimal digits back as a byte.  Not taken from the
    source; it is the inverse used to show that the text keeps the bytes. *)
Fixpoint index_of (c : ascii) (s : string) : option nat :=
  match s with
  | EmptyString => None
  | String d s' =>
      if Ascii.eqb c d then Some O else option_map S (index_of c s')
  end.

Definition unhex2 (s : string) : option byte :=
  match s with
  | String h (String l EmptyString) =>
      match index_of h "0123456789ABCDEF", index_of l "0123456789ABCDEF" with
      | Some a, Some b => Byte.of_N (N.of_nat (16 * a + b))
      | _, _ => None
      end
  | _ => None
  end.

(** ** Sample runs *)

Example ex_unpack :
  fst (MTID.unpack [x10; x05; x2f; xff] 7%nat)
  = Return (MTID.mk [_Topology.mk 7 1 5; _Topology.mk 8 2 0xFFF]
                    (Some [x10; x05; x2f; xff])).
Proof. reflexivity. Qed.

Example ex_json :
  _Topology.json (_Topology.mk 0 1 5)
  = ("{ " ++ dq ++ "bits" ++ dq ++ ": " ++ dq ++ "0001" ++ dq ++ ", "
          ++ dq ++ "multi-topology-id" ++ dq ++ ": 5 }")%string.
Proof. reflexivity. Qed.

Example ex_str :
  MTID.__str__ (MTID.mk [] (Some [x12; x34; xab; xcd]))
  = Return "12:34:AB:CD"%string.
Proof. reflexivity. Qed.

(** * Properties *)

(** ** The decoding loop *)

Lemma unpack_loop_app (data : bytes) (idx1 idx2 : list nat) :
  forall tids st,
    MTID.unpack_loop data (idx1 ++ idx2) tids st
    = match MTID.unpack_loop data idx1 tids st with
      | (Return tids', st') => MTID.unpack_loop data idx2 tids' st'
      | (Raise e, st') => (Raise e, st')
      end.
Proof.
  induction idx1 as [|i idx1 IH]; intros tids st; simpl.
  - reflexivity.
  - unfold bind, lift.
    destruct (struct_unpack_H (slice data i (i + 2))) as [w|e]; [|reflexivity].
    simpl. apply IH.
Qed.

Lemma slice_full (data : bytes) (i : nat) (d : byte) :
  (i + 2 <= List.length data)%nat ->
  slice data i (i + 2) = [nth i data d; nth (S i) data d].
Proof.
  unfold slice. replace (i + 2 - i)%nat with 2%nat by lia.
  revert data. induction i as [|i IH]; intros data H.
  - destruct data as [|a [|b data]]; simpl in *; try lia. reflexivity.
  - destruct data as [|a data]; simpl in *; [lia|].
    apply IH. lia.
Qed.

Lemma slice_short (data : bytes) (i : nat) (d : byte) :
  List.length data = S i ->
  slice data i (i + 2) = [nth i data d].
Proof.
  unfold slice. replace (i + 2 - i)%nat with 2%nat by lia.
  revert data. induction i as [|i IH]; intros data H.
  - destruct data as [|a [|b data]]; simpl in *; try lia. reflexivity.
  - destruct data as [|a data]; simpl in *; [lia|].
    apply IH. lia.
Qed.

Lemma unpack_loop_words (data : bytes) (st : nat) :
  forall m,
    (2 * m <= List.length data)%nat ->
    MTID.unpack_loop data (map (fun k => (0 + k * 2)%nat) (seq 0 m)) [] st
    = (Return (map (entry_at data st) (seq 0 m)), (st + m)%nat).
Proof.
  induction m as [|m IH]; intros H.
  - simpl. unfold ret. f_equal. lia.
  - rewrite seq_S, !map_app, unpack_loop_app, IH by lia.
    simpl. unfold bind, lift.
    rewrite (slice_full data (m * 2) x00) by lia.
    simpl. unfold ret, entry_at.
    replace (2 * m)%nat with (m * 2)%nat by lia.
    replace (m * 2 + 1)%nat with (S (m * 2)) by lia.
    f_equal. lia.
Qed.

Lemma range_even (q : nat) :
  range 0 (2 * q) 2 = map (fun k => (0 + k * 2)%nat) (seq 0 q).
Proof.
  unfold range. do 2 f_equal.
  replace (2 * q - 0 + 2 - 1)%nat with (1 + q * 2)%nat by lia.
  rewrite Nat.div_add by lia. reflexivity.
Qed.

Lemma range_odd (q : nat) :
  range 0 (2 * q + 1) 2 = map (fun k => (0 + k * 2)%nat) (seq 0 (S q)).
Proof.
  unfold range. do 2 f_equal.
  replace (2 * q + 1 - 0 + 2 - 1)%nat with (0 + (S q) * 2)%nat by lia.
  rewrite Nat.div_add by lia. reflexivity.
Qed.

Lemma even_length_half (n : nat) :
  Nat.even n = true -> n = (2 * (n / 2))%nat.
Proof.
  intros H. apply Nat.even_spec in H. destruct H as [q ->].
  replace (2 * q)%nat with (q * 2)%nat by lia.
  rewrite Nat.div_mul by lia. lia.
Qed.

Lemma odd_length_half (n : nat) :
  Nat.odd n = true -> n = (2 * (n / 2) + 1)%nat.
Proof.
  intros H. apply Nat.odd_spec in H. destruct H as [q ->].
  replace (2 * q + 1)%nat with (1 + q * 2)%nat by lia.
  rewrite Nat.div_add by lia. simpl. lia.
Qed.

(** On an even-length payload the decoder returns, having created one
    object per word. *)
Lemma unpack_even (data : bytes) (st : nat) :
  Nat.even (List.length data) = true ->
  MTID.unpack data st
  = (Return (MTID.mk (map (entry_at data st) (seq 0 (List.length data / 2)))
                     (Some data)),
     (st + List.length data / 2)%nat).
Proof.
  intros H. unfold MTID.unpack, bind.
  rewrite (even_length_half _ H) at 1.
  rewrite range_even, unpack_loop_words.
  - reflexivity.
  - rewrite <- (even_length_half _ H). lia.
Qed.

(** On an odd-length payload the last iteration reads a one-byte slice. *)
Lemma unpack_odd (data : bytes) (st : nat) :
  Nat.odd (List.length data) = true ->
  MTID.unpack data st
  = (Raise (struct_error "unpack requires a buffer of 2 bytes"),
     (st + List.length data / 2)%nat).
Proof.
  intros H. unfold MTID.unpack, bind.
  pose proof (odd_length_half _ H) as Hn.
  rewrite Hn at 1.
  rewrite range_odd, seq_S, map_app, unpack_loop_app, unpack_loop_words by lia.
  cbn [map MTID.unpack_loop Nat.add]. unfold bind, lift.
  rewrite (slice_short data (List.length data / 2 * 2) x00) by lia.
  reflexivity.
Qed.

(** ** Big-endian words *)

Lemma byte_int_range (b : byte) : 0 <= byte_int b < 256.
Proof.
  unfold byte_int. pose proof (Byte.to_N_bounded b). lia.
Qed.

Lemma lor_shiftl_add (a b n : Z) :
  0 <= n -> 0 <= b < 2 ^ n ->
  Z.lor (Z.shiftl a n) b = a * 2 ^ n + b.
Proof.
  intros Hn Hb. rewrite Z.shiftl_mul_pow2 by assumption.
  assert (Hland : Z.land (a * 2 ^ n) b = 0).
  { apply Z.bits_inj'. intros m Hm.
    rewrite Z.land_spec, Z.bits_0.
    destruct (Z.lt_ge_cases m n) as [Hlt|Hge].
    - rewrite Z.mul_pow2_bits_low by assumption. reflexivity.
    - rewrite <- (Z.mod_small b (2 ^ n)) by assumption.
      rewrite Z.mod_pow2_bits_high by lia. apply andb_false_r. }
  rewrite <- Z.lxor_lor by assumption.
  symmetry. apply Z.add_nocarry_lxor. assumption.
Qed.

Lemma be16_arith (hi lo : byte) :
  be16 hi lo = byte_int hi * 256 + byte_int lo.
Proof.
  unfold be16. pose proof (byte_int_range lo).
  rewrite lor_shiftl_add; lia.
Qed.

Lemma be16_range (hi lo : byte) : 0 <= be16 hi lo < 65536.
Proof.
  rewrite be16_arith.
  pose proof (byte_int_range hi). pose proof (byte_int_range lo). lia.
Qed.

Lemma byte_of_int (n : Z) :
  0 <= n < 256 -> exists b, byte_int b = n.
Proof.
  intros Hn. destruct (Byte.of_N (Z.to_N n)) as [b|] eqn:E.
  - exists b. unfold byte_int. apply Byte.to_of_N in E. rewrite E. lia.
  - apply Byte.of_N_None_iff in E. lia.
Qed.

Lemma be16_onto (w : Z) :
  0 <= w < 65536 -> exists hi lo, be16 hi lo = w.
Proof.
  intros Hw.
  destruct (byte_of_int (w / 256)) as [hi Hhi].
  { split; [apply Z.div_pos; lia | apply Z.div_lt_upper_bound; lia]. }
  destruct (byte_of_int (w mod 256)) as [lo Hlo].
  { apply Z.mod_pos_bound. lia. }
  exists hi, lo. rewrite be16_arith, Hhi, Hlo.
  pose proof (Z.div_mod w 256). lia.
Qed.

(** Splitting a word at bit 12 loses nothing. *)
Lemma split_at_12 (w : Z) :
  Z.lor (Z.shiftl (Z.shiftr w 12) 12) (Z.land w 0x0FFF) = w.
Proof.
  change 0x0FFF with (Z.ones 12).
  apply Z.bits_inj'. intros m Hm.
  rewrite Z.lor_spec, Z.land_spec.
  destruct (Z.lt_ge_cases m 12) as [Hlt|Hge].
  - rewrite Z.shiftl_spec_low by assumption.
    rewrite Z.ones_spec_low by lia.
    rewrite andb_true_r. reflexivity.
  - rewrite Z.shiftl_spec_high by lia.
    rewrite Z.shiftr_spec by lia.
    rewrite Z.ones_spec_high by lia.
    rewrite andb_false_r, orb_false_r. f_equal. lia.
Qed.

Lemma nth_error_nth_some {A} (l : list A) (i : nat) (d : A) :
  (i < List.length l)%nat -> nth_error l i = Some (nth i l d).
Proof.
  revert i. induction l as [|a l IH]; intros [|i] H; simpl in *;
    try lia; [reflexivity | apply IH; lia].
Qed.

(** ** Round trip *)

(** X1: Re-encoding what was decoded from a payload of one word or more gives
    the payload back. *)
Lemma roundtrip_nonempty (data : bytes) (st : nat) :
  Nat.even (List.length data) = true ->
  data <> [] ->
  fst (pack_of_decoding data st) = Return data.
Proof.
  intros H Hne. unfold pack_of_decoding, bind.
  rewrite unpack_even by assumption.
  destruct data; [contradiction | reflexivity].
Qed.

(** C1 (round trip, [MTID.unpack(b).pack() == b] for every even-length
    [b]): the code does not do this at the empty payload, which has even
    length.  Decoding [b''] returns a field, and [pack] on that field
    raises [RuntimeError] where the claim has it return [b'']. *)
Theorem roundtrip_fails_on_empty_payload :
  Nat.even (List.length (@nil byte)) = true
  /\ fst (MTID.unpack [] 0%nat) = Return (MTID.mk [] (Some []))
  /\ fst (pack_of_decoding [] 0%nat) = Raise (RuntimeError "Not implemented")
  /\ fst (pack_of_decoding [] 0%nat) <> Return [].
Proof.
  repeat split. discriminate.
Qed.

(** ** Odd-length payloads *)

(** C3: for every payload of odd length [MTID.unpack] raises (the error of
    [struct.unpack] on the one-byte slice left at the end); no field is
    returned, so the trailing byte is not dropped silently. *)
Theorem unpack_odd_length_raises (data : bytes) (st : nat) :
  Nat.odd (List.length data) = true ->
  fst (MTID.unpack data st)
  = Raise (struct_error "unpack requires a buffer of 2 bytes").
Proof.
  intros H. rewrite unpack_odd by assumption. reflexivity.
Qed.

Lemma unpack_odd_length_raises_witness :
  Nat.odd (List.length [x10; x05; x07]) = true
  /\ fst (MTID.unpack [x10; x05; x07] 0%nat)
     = Raise (struct_error "unpack requires a buffer of 2 bytes").
Proof.
  split; [reflexivity | apply (unpack_odd_length_raises [x10; x05; x07] 0%nat)].
  reflexivity.
Defined.

(** ** The bit split *)

(** C4: every 16-bit word [w] is the big-endian reading of two bytes;
    decoding them yields one entry with [bits = w >> 12] and
    [tid = w & 0x0FFF], and [w = (bits << 12) | tid]. *)
Theorem decode_word_split (w : Z) :
  0 <= w < 65536 ->
  exists hi lo,
    struct_unpack_H [hi; lo] = Return w
    /\ forall st, exists tp st',
         MTID.unpack [hi; lo] st = (Return (MTID.mk [tp] (Some [hi; lo])), st')
         /\ _Topology.bits tp = Z.shiftr w 12
         /\ _Topology.tid tp = Z.land w 0x0FFF
         /\ w = Z.lor (Z.shiftl (_Topology.bits tp) 12) (_Topology.tid tp).
Proof.
  intros Hw. destruct (be16_onto w Hw) as (hi & lo & E).
  exists hi, lo. split; [simpl; congruence|].
  intros st. rewrite unpack_even by reflexivity.
  do 2 eexists. split; [reflexivity|].
  unfold entry_at. cbn [_Topology.bits _Topology.tid nth Nat.mul Nat.add].
  rewrite E. repeat split. symmetry. apply split_at_12.
Qed.

Lemma decode_word_split_witness :
  0 <= 0x1005 < 65536
  /\ exists hi lo,
       struct_unpack_H [hi; lo] = Return 0x1005
       /\ forall st, exists tp st',
            MTID.unpack [hi; lo] st
            = (Return (MTID.mk [tp] (Some [hi; lo])), st')
            /\ _Topology.bits tp = 1
            /\ _Topology.tid tp = 5
            /\ 0x1005 = Z.lor (Z.shiftl (_Topology.bits tp) 12)
                              (_Topology.tid tp).
Proof.
  split; [lia | apply (decode_word_split 0x1005); lia].
Defined.

(** ** Entry count and order *)

(** C5: on an even-length payload [MTID.unpack] returns a field with
    [len(data) / 2] entries, and entry [i] has the [bits] and [tid] of the
    big-endian word made of bytes [2i] and [2i+1] of the payload, that is
    of the number [256 * data[2i] + data[2i+1]]; the entries come in
    payload order. *)
Theorem unpack_entries_in_order (data : bytes) (st : nat) :
  Nat.even (List.length data) = true ->
  exists m st',
    MTID.unpack data st = (Return m, st')
    /\ List.length (MTID.topologies m) = (List.length data / 2)%nat
    /\ map fields (MTID.topologies m)
       = map (fun i =>
                let w := byte_int (nth (2 * i) data x00) * 256
                         + byte_int (nth (2 * i + 1) data x00) in
                (Z.shiftr w 12, Z.land w 0x0FFF))
             (seq 0 (List.length data / 2))
    /\ forall i, (i < List.length data / 2)%nat ->
         exists hi lo tp,
           nth_error data (2 * i) = Some hi
           /\ nth_error data (2 * i + 1) = Some lo
           /\ nth_error (MTID.topologies m) i = Some tp
           /\ struct_unpack_H (slice data (2 * i) (2 * i + 2))
              = Return (byte_int hi * 256 + byte_int lo)
           /\ _Topology.bits tp
              = Z.shiftr (byte_int hi * 256 + byte_int lo) 12
           /\ _Topology.tid tp
              = Z.land (byte_int hi * 256 + byte_int lo) 0x0FFF.
Proof.
  intros H. rewrite unpack_even by assumption.
  pose proof (even_length_half _ H) as Hn.
  do 2 eexists. split; [reflexivity|].
  cbn [MTID.topologies]. rewrite length_map, length_seq.
  split; [reflexivity|]. split.
  { rewrite map_map. apply map_ext. intros i.
    unfold fields, entry_at. cbn [_Topology.bits _Topology.tid].
    rewrite be16_arith. reflexivity. }
  intros i Hi.
  exists (nth (2 * i) data x00), (nth (2 * i + 1) data x00),
         (entry_at data st i).
  split; [apply nth_error_nth_some; lia|].
  split; [apply nth_error_nth_some; lia|].
  split.
  { rewrite (nth_error_nth_some _ i (entry_at data st 0%nat))
      by (rewrite length_map, length_seq; assumption).
    f_equal. rewrite (map_nth (entry_at data st)), seq_nth by assumption.
    reflexivity. }
  split.
  { rewrite (slice_full data (2 * i) x00) by lia.
    replace (S (2 * i)) with (2 * i + 1)%nat by lia.
    cbn [struct_unpack_H]. rewrite be16_arith. reflexivity. }
  unfold entry_at. cbn [_Topology.bits _Topology.tid].
  rewrite be16_arith. split; reflexivity.
Qed.

Lemma unpack_entries_in_order_witness :
  Nat.even (List.length [x10; x05; x2f; xff]) = true
  /\ exists m st',
       MTID.unpack [x10; x05; x2f; xff] 0%nat = (Return m, st')
       /\ List.length (MTID.topologies m) = 2%nat
       /\ map fields (MTID.topologies m) = [(1, 5); (2, 4095)]
       /\ forall i, (i < List.length [x10; x05; x2f; xff] / 2)%nat ->
            exists hi lo tp,
              nth_error [x10; x05; x2f; xff] (2 * i) = Some hi
              /\ nth_error [x10; x05; x2f; xff] (2 * i + 1) = Some lo
              /\ nth_error (MTID.topologies m) i = Some tp
              /\ struct_unpack_H (slice [x10; x05; x2f; xff] (2 * i) (2 * i + 2))
                 = Return (byte_int hi * 256 + byte_int lo)
              /\ _Topology.bits tp
                 = Z.shiftr (byte_int hi * 256 + byte_int lo) 12
              /\ _Topology.tid tp
                 = Z.land (byte_int hi * 256 + byte_int lo) 0x0FFF.
Proof.
  split; [reflexivity|].
  apply (unpack_entries_in_order [x10; x05; x2f; xff] 0%nat). reflexivity.
Defined.

(** ** Equality *)

Lemma items_eq_same_objects (xs ys : list _Topology.t) :
  List.length xs = List.length ys ->
  (items_eq xs ys = true <-> map _Topology.oid xs = map _Topology.oid ys).
Proof.
  revert ys. induction xs as [|x xs IH]; intros [|y ys] Hlen;
    simpl in *; try discriminate.
  - split; reflexivity.
  - injection Hlen as Hlen. specialize (IH ys Hlen).
    unfold _Topology.__eq__, _Topology.is_.
    rewrite orb_diag, andb_true_iff, Nat.eqb_eq, IH.
    split.
    + intros [-> ->]. reflexivity.
    + intros E. injection E as E1 E2. split; assumption.
Qed.

(** What [MTID.__eq__] decides: the two entry lists hold the same objects
    in the same order. *)
Lemma eq_iff_same_objects (a b : MTID.t) :
  MTID.__eq__ a b = true
  <-> map _Topology.oid (MTID.topologies a)
      = map _Topology.oid (MTID.topologies b).
Proof.
  unfold MTID.__eq__, list_eq.
  destruct (Nat.eqb_spec (List.length (MTID.topologies a))
                         (List.length (MTID.topologies b))) as [E|N]; simpl.
  - apply items_eq_same_objects. assumption.
  - split; [discriminate|].
    intros H. exfalso. apply N.
    rewrite <- (length_map _Topology.oid (MTID.topologies a)), H.
    apply length_map.
Qed.

(** Two decodings of payloads of one word or more never compare equal,
    whatever the payloads are: each decoding creates its own entries. *)
Lemma decodings_never_equal (b1 b2 : bytes) (st : nat) :
  Nat.even (List.length b1) = true -> b1 <> [] ->
  Nat.even (List.length b2) = true -> b2 <> [] ->
  fst (eq_of_decodings b1 b2 st) = Return false.
Proof.
  intros H1 N1 H2 N2. unfold eq_of_decodings, bind.
  rewrite unpack_even by assumption.
  rewrite unpack_even by assumption.
  cbn [ret fst]. f_equal.
  destruct (MTID.__eq__ _ _) eqn:E; [|reflexivity].
  apply eq_iff_same_objects in E. cbn [MTID.topologies] in E.
  pose proof (even_length_half _ H1) as L1.
  pose proof (even_length_half _ H2) as L2.
  destruct (List.length b1 / 2)%nat as [|n1] eqn:E1.
  { destruct b1; [contradiction | simpl in L1; lia]. }
  destruct (List.length b2 / 2)%nat as [|n2] eqn:E2.
  { destruct b2; [contradiction | simpl in L2; lia]. }
  simpl in E. injection E as E _. lia.
Qed.

(** C2 (equality is structural; decoding [10 05] twice gives equal
    fields): the code does not do this.  [_Topology] defines no [__eq__],
    so the list comparison in [MTID.__eq__] compares entries by identity:
    [MTID.unpack(bytes([0x10,0x05])) == MTID.unpack(bytes([0x10,0x05]))]
    evaluates to [False] although the two fields have the same length and
    the same [bits] and [tid] at each position. *)
Theorem eq_of_equal_decodings_is_false :
  exists a b st1 st2,
    MTID.unpack [x10; x05] 0%nat = (Return a, st1)
    /\ MTID.unpack [x10; x05] st1 = (Return b, st2)
    /\ structural_eq (MTID.topologies a) (MTID.topologies b) = true
    /\ MTID.__eq__ a b = false
    /\ fst (eq_of_decodings [x10; x05] [x10; x05] 0%nat) = Return false.
Proof.
  do 4 eexists. repeat split.
Qed.

(** The second example of the claim holds on the code. *)
Lemma eq_of_different_decodings_is_false :
  fst (eq_of_decodings [x10; x05] [x20; x05] 0%nat) = Return false.
Proof. reflexivity. Qed.

(** ** Ordering *)

(** C6: each of [a < b], [a <= b], [a > b], [a >= b] raises
    [RuntimeError] for every pair of fields; none returns a value. *)
Theorem ordering_always_raises (a b : MTID.t) :
  MTID.__lt__ a b = Raise (RuntimeError "Not implemented")
  /\ MTID.__le__ a b = Raise (RuntimeError "Not implemented")
  /\ MTID.__gt__ a b = Raise (RuntimeError "Not implemented")
  /\ MTID.__ge__ a b = Raise (RuntimeError "Not implemented")
  /\ forall r : bool,
       MTID.__lt__ a b <> Return r /\ MTID.__le__ a b <> Return r
       /\ MTID.__gt__ a b <> Return r /\ MTID.__ge__ a b <> Return r.
Proof.
  repeat split; discriminate.
Qed.

(** ** Encoding *)

Lemma pack_without_cache (ts : list _Topology.t) :
  MTID.pack (MTID.init ts) = Raise (RuntimeError "Not implemented").
Proof. reflexivity. Qed.

Lemma pack_nonempty_cache (ts : list _Topology.t) (p : bytes) :
  p <> [] -> MTID.pack (MTID.mk ts (Some p)) = Return p.
Proof.
  intros H. destruct p; [contradiction | reflexivity].
Qed.

(** C7 (without a raw cache [pack] raises; with a raw cache present it
    returns the cache unchanged): the first half holds, and so does the
    second for a cache of one byte or more, but a field whose cache is
    present and empty, [MTID(ts, b'')], makes [pack] raise instead of
    returning [b'']. *)
Theorem pack_raises_on_empty_cache :
  (forall ts, MTID.pack (MTID.init ts) = Raise (RuntimeError "Not implemented"))
  /\ (forall ts b p, MTID.pack (MTID.mk ts (Some (b :: p))) = Return (b :: p))
  /\ (forall ts, MTID.pack (MTID.mk ts (Some []))
                 = Raise (RuntimeError "Not implemented"))
  /\ MTID.pack (MTID.mk [] (Some [])) <> Return [].
Proof.
  repeat split. discriminate.
Qed.

(** ** Structured rendering *)

Lemma bits_text_4 (n : Z) :
  0 <= n < 16 ->
  str_last 4 ("0000" ++ str_from 2 (bin n)) = bits4_spec n.
Proof.
  intros H.
  assert (Hk : (Z.to_nat n < 16)%nat) by lia.
  replace n with (Z.of_nat (Z.to_nat n)) by lia.
  generalize dependent (Z.to_nat n). clear H. intros k Hk.
  do 16 (destruct k as [|k]; [reflexivity|]).
  lia.
Qed.

(** The text ['%d'] produces reads back as the number it was made from. *)
Lemma format_d_reads_back (n : Z) :
  option_map Z.of_int (NilZero.int_of_string (format_d n)) = Some n.
Proof.
  unfold format_d.
  destruct n as [|p|p]; [reflexivity| |].
  - rewrite NilZero.isi.
    + cbn [option_map]. f_equal. apply DecimalZ.of_to.
    + simpl. intros [= E]. revert E. apply DecimalPos.Unsigned.to_uint_nonnil.
    + discriminate.
  - rewrite NilZero.isi.
    + cbn [option_map]. f_equal. apply DecimalZ.of_to.
    + discriminate.
    + simpl. intros [= E]. revert E. apply DecimalPos.Unsigned.to_uint_nonnil.
Qed.

Lemma decoded_bits_range (data : bytes) (st i : nat) :
  0 <= _Topology.bits (entry_at data st i) < 16
  /\ 0 <= _Topology.tid (entry_at data st i) < 4096.
Proof.
  unfold entry_at. cbn [_Topology.bits _Topology.tid].
  set (w := be16 _ _).
  assert (Hw : 0 <= w < 65536) by apply be16_range.
  rewrite Z.shiftr_div_pow2 by lia.
  change 0x0FFF with (Z.ones 12). rewrite Z.land_ones by lia.
  change (2 ^ 12) with 4096.
  pose proof (Z.mod_pos_bound w 4096).
  pose proof (Z.div_pos w 4096).
  pose proof (Z.div_lt_upper_bound w 4096 16).
  lia.
Qed.

(** Every entry the decoder creates carries a 4-bit [bits], so it renders
    with four binary digits. *)
Lemma json_of_decoded_entry (data : bytes) (st i : nat) :
  _Topology.json (entry_at data st i)
  = json_record (bits4_spec (_Topology.bits (entry_at data st i)))
                (format_d (_Topology.tid (entry_at data st i))).
Proof.
  unfold _Topology.json, json_record.
  rewrite bits_text_4 by apply decoded_bits_range.
  reflexivity.
Qed.

(** C8: an entry whose reserved field is a 4-bit value renders as the
    record with that field as exactly four binary digits, zero-filled on
    the left, and the identifier in decimal; the field renders as the
    entries' records separated by [", "] between brackets; the payload
    [10 05] decodes to one entry with [bits = 1] and [tid = 5], which
    renders as [{ "bits": "0001", "multi-topology-id": 5 }]. *)
Theorem json_rendering (tp : _Topology.t) (ts : list _Topology.t)
        (pk : option bytes) :
  0 <= _Topology.bits tp < 16 ->
  _Topology.json tp
  = json_record (bits4_spec (_Topology.bits tp)) (format_d (_Topology.tid tp))
  /\ String.length (bits4_spec (_Topology.bits tp)) = 4%nat
  /\ option_map Z.of_int (NilZero.int_of_string (format_d (_Topology.tid tp)))
     = Some (_Topology.tid tp)
  /\ MTID.json (MTID.mk ts pk)
     = ("[" ++ String.concat ", " (map _Topology.json ts) ++ "]")%string
  /\ fst (MTID.unpack [x10; x05] 0%nat)
     = Return (MTID.mk [_Topology.mk 0 1 5] (Some [x10; x05]))
  /\ _Topology.json (_Topology.mk 0 1 5)
     = ("{ " ++ dq ++ "bits" ++ dq ++ ": " ++ dq ++ "0001" ++ dq ++ ", "
             ++ dq ++ "multi-topology-id" ++ dq ++ ": 5 }")%string.
Proof.
  intros H. repeat split.
  - unfold _Topology.json, json_record. rewrite bits_text_4 by assumption.
    reflexivity.
  - apply format_d_reads_back.
Qed.

Lemma json_rendering_witness :
  0 <= _Topology.bits (_Topology.mk 1 2 4095) < 16
  /\ _Topology.json (_Topology.mk 1 2 4095) = json_record "0010" "4095"
  /\ String.length (bits4_spec (_Topology.bits (_Topology.mk 1 2 4095)))
     = 4%nat
  /\ option_map Z.of_int (NilZero.int_of_string "4095") = Some 4095
  /\ MTID.json (MTID.mk [_Topology.mk 0 1 5; _Topology.mk 1 2 4095] None)
     = ("[" ++ String.concat ", "
                 (map _Topology.json
                      [_Topology.mk 0 1 5; _Topology.mk 1 2 4095])
            ++ "]")%string
  /\ fst (MTID.unpack [x10; x05] 0%nat)
     = Return (MTID.mk [_Topology.mk 0 1 5] (Some [x10; x05]))
  /\ _Topology.json (_Topology.mk 0 1 5)
     = ("{ " ++ dq ++ "bits" ++ dq ++ ": " ++ dq ++ "0001" ++ dq ++ ", "
             ++ dq ++ "multi-topology-id" ++ dq ++ ": 5 }")%string.
Proof.
  split; [simpl; lia|].
  apply (json_rendering (_Topology.mk 1 2 4095)
                        [_Topology.mk 0 1 5; _Topology.mk 1 2 4095] None).
  simpl; lia.
Defined.

(** ** Textual rendering and hashing *)

Lemma format_02X_byte (b : byte) : format_02X (byte_int b) = hex2_spec b.
Proof. destruct b; reflexivity. Qed.

Lemma str_of_pack (m : MTID.t) :
  MTID.__str__ m
  = result_bind (MTID.pack m)
      (fun p => Return (String.concat ":" (map hex2_spec p))).
Proof.
  unfold MTID.__str__. destruct (MTID.pack m) as [p|e]; [|reflexivity].
  simpl. do 2 f_equal. apply map_ext. intros b. apply format_02X_byte.
Qed.

(** C9: [__hash__] is the built-in hash of the text [__str__] gives, and
    that text is the bytes [pack] returns, each as two upper-case
    hexadecimal digits, joined by colons; when [pack] raises, so do
    [__str__] and [__hash__], with the same exception, as for a field
    built without a raw cache. *)
Theorem hash_is_hash_of_text (hash : string -> Z) (m : MTID.t) :
  MTID.__hash__ hash m
  = result_bind (MTID.__str__ m) (fun s => Return (hash s))
  /\ MTID.__str__ m
     = result_bind (MTID.pack m)
         (fun p => Return (String.concat ":" (map hex2_spec p)))
  /\ match MTID.pack m with
     | Return p =>
         MTID.__hash__ hash m
         = Return (hash (String.concat ":" (map hex2_spec p)))
     | Raise e =>
         MTID.__str__ m = Raise e /\ MTID.__hash__ hash m = Raise e
     end
  /\ (forall ts,
        MTID.pack (MTID.init ts) = Raise (RuntimeError "Not implemented")
        /\ MTID.__hash__ hash (MTID.init ts)
           = Raise (RuntimeError "Not implemented"))
  /\ MTID.__str__ (MTID.mk [] (Some [x12; x34; xab; xcd]))
     = Return "12:34:AB:CD"%string.
Proof.
  split; [reflexivity|].
  split; [apply str_of_pack|].
  split.
  - unfold MTID.__hash__. rewrite str_of_pack.
    destruct (MTID.pack m) as [p|e]; simpl; [reflexivity | split; reflexivity].
  - split; [intros ts; split; reflexivity | reflexivity].
Qed.

(** ** The empty payload *)

(** C10: decoding the empty payload returns a field with no entry and the
    empty byte string as raw cache; the truth test in [pack] takes that
    cache for an absent one, so [pack], [__str__] and [__hash__] all
    raise on this field. *)
Theorem empty_decoding_cannot_be_packed (hash : string -> Z) (st : nat) :
  MTID.unpack [] st = (Return (MTID.mk [] (Some [])), st)
  /\ MTID.truth (Some []) = MTID.truth None
  /\ MTID.pack (MTID.mk [] (Some [])) = Raise (RuntimeError "Not implemented")
  /\ MTID.pack (MTID.mk [] (Some [])) <> Return []
  /\ MTID.__str__ (MTID.mk [] (Some []))
     = Raise (RuntimeError "Not implemented")
  /\ MTID.__hash__ hash (MTID.mk [] (Some []))
     = Raise (RuntimeError "Not implemented").
Proof.
  repeat split. discriminate.
Qed.

(** * Further properties of the module *)

(** ** Round trip on payloads of one word or more *)

Lemma roundtrip_nonempty_witness :
  Nat.even (List.length [x10; x05; x2f; xff]) = true
  /\ [x10; x05; x2f; xff] <> []
  /\ fst (pack_of_decoding [x10; x05; x2f; xff] 3%nat)
     = Return [x10; x05; x2f; xff].
Proof.
  split; [reflexivity|]. split; [discriminate|].
  apply (roundtrip_nonempty [x10; x05; x2f; xff] 3%nat);
    [reflexivity | discriminate].
Defined.

(** ** Decoding a concatenation *)

Lemma seq_from (s n : nat) :
  forall k, map (fun i => (s + i)%nat) (seq k n) = seq (s + k) n.
Proof.
  induction n as [|n IH]; intros k; simpl; [reflexivity|].
  f_equal. rewrite IH. f_equal. lia.
Qed.

Lemma half_of_sum (n1 n2 : nat) :
  Nat.even n1 = true -> Nat.even n2 = true ->
  ((n1 + n2) / 2 = n1 / 2 + n2 / 2)%nat.
Proof.
  intros H1 H2.
  pose proof (even_length_half _ H1) as E1.
  pose proof (even_length_half _ H2) as E2.
  rewrite E1 at 1. rewrite E2 at 1.
  replace (2 * (n1 / 2) + 2 * (n2 / 2))%nat
    with ((n1 / 2 + n2 / 2) * 2)%nat by lia.
  apply Nat.div_mul. lia.
Qed.

Lemma entry_at_app_l (b1 b2 : bytes) (st i : nat) :
  (2 * i + 1 < List.length b1)%nat ->
  entry_at (b1 ++ b2) st i = entry_at b1 st i.
Proof.
  intros H. unfold entry_at.
  rewrite !app_nth1 by lia. reflexivity.
Qed.

Lemma entry_at_app_r (b1 b2 : bytes) (st k i : nat) :
  List.length b1 = (2 * k)%nat ->
  entry_at (b1 ++ b2) st (k + i) = entry_at b2 (st + k) i.
Proof.
  intros H. unfold entry_at.
  rewrite !app_nth2 by lia.
  replace (2 * (k + i) - List.length b1)%nat with (2 * i)%nat by lia.
  replace (2 * (k + i) + 1 - List.length b1)%nat with (2 * i + 1)%nat by lia.
  replace (st + (k + i))%nat with (st + k + i)%nat by lia.
  reflexivity.
Qed.

(** X2: Decoding [b1 + b2], two payloads of whole words, creates the entries
    of [b1] followed by the entries of [b2], as decoding [b1] and then
    [b2] does, and keeps [b1 + b2] as raw cache. *)
Theorem unpack_concatenation (b1 b2 : bytes) (st : nat) :
  Nat.even (List.length b1) = true ->
  Nat.even (List.length b2) = true ->
  exists m1 st1 m2 st2 m,
    MTID.unpack b1 st = (Return m1, st1)
    /\ MTID.unpack b2 st1 = (Return m2, st2)
    /\ MTID.unpack (b1 ++ b2) st = (Return m, st2)
    /\ MTID.topologies m = MTID.topologies m1 ++ MTID.topologies m2
    /\ MTID._packed m = Some (b1 ++ b2).
Proof.
  intros H1 H2.
  assert (H12 : Nat.even (List.length (b1 ++ b2)) = true).
  { rewrite length_app, Nat.even_add, H1, H2. reflexivity. }
  do 5 eexists.
  split; [apply unpack_even; assumption|].
  split; [apply unpack_even; assumption|].
  rewrite unpack_even by assumption.
  rewrite length_app, half_of_sum by assumption.
  split; [f_equal; lia|]. split; [|reflexivity].
  cbn [MTID.topologies].
  pose proof (even_length_half _ H1) as L1.
  rewrite seq_app, map_app. f_equal.
  - apply map_ext_in. intros i Hi. apply in_seq in Hi.
    apply entry_at_app_l. lia.
  - replace (0 + List.length b1 / 2)%nat
      with (List.length b1 / 2 + 0)%nat by lia.
    rewrite <- (seq_from (List.length b1 / 2)), map_map.
    apply map_ext. intros i. apply entry_at_app_r. assumption.
Qed.

Lemma unpack_concatenation_witness :
  Nat.even (List.length [x10; x05]) = true
  /\ Nat.even (List.length [x2f; xff; x00; x01]) = true
  /\ exists m1 st1 m2 st2 m,
       MTID.unpack [x10; x05] 0%nat = (Return m1, st1)
       /\ MTID.unpack [x2f; xff; x00; x01] st1 = (Return m2, st2)
       /\ MTID.unpack ([x10; x05] ++ [x2f; xff; x00; x01]) 0%nat
          = (Return m, st2)
       /\ MTID.topologies m = MTID.topologies m1 ++ MTID.topologies m2
       /\ MTID._packed m = Some ([x10; x05] ++ [x2f; xff; x00; x01]).
Proof.
  split; [reflexivity|]. split; [reflexivity|].
  apply (unpack_concatenation [x10; x05] [x2f; xff; x00; x01] 0%nat);
    reflexivity.
Defined.

(** ** What the decoder creates *)

(** X3: Every entry of a decoded field has [bits] in 0..15 and [tid] in
    0..4095. *)
Theorem decoded_entries_in_range (data : bytes) (st : nat) :
  Nat.even (List.length data) = true ->
  exists m st',
    MTID.unpack data st = (Return m, st')
    /\ Forall (fun tp => 0 <= _Topology.bits tp < 16
                         /\ 0 <= _Topology.tid tp < 4096)
              (MTID.topologies m).
Proof.
  intros H. rewrite unpack_even by assumption.
  do 2 eexists. split; [reflexivity|].
  cbn [MTID.topologies]. apply Forall_forall. intros tp Hin.
  apply in_map_iff in Hin. destruct Hin as (i & <- & _).
  apply decoded_bits_range.
Qed.

Lemma decoded_entries_in_range_witness :
  Nat.even (List.length [xff; xff; x80; x00]) = true
  /\ exists m st',
       MTID.unpack [xff; xff; x80; x00] 0%nat = (Return m, st')
       /\ Forall (fun tp => 0 <= _Topology.bits tp < 16
                            /\ 0 <= _Topology.tid tp < 4096)
                 (MTID.topologies m).
Proof.
  split; [reflexivity|].
  apply (decoded_entries_in_range [xff; xff; x80; x00] 0%nat). reflexivity.
Defined.

(** X5: The decoder creates one new object per word: the entries of the
    returned field are pairwise distinct objects, none of which existed
    before the call, and the allocation counter advances by the number of
    words. *)
Theorem unpack_creates_fresh_entries (data : bytes) (st : nat) :
  Nat.even (List.length data) = true ->
  exists m,
    MTID.unpack data st = (Return m, (st + List.length data / 2)%nat)
    /\ map _Topology.oid (MTID.topologies m) = seq st (List.length data / 2)
    /\ NoDup (map _Topology.oid (MTID.topologies m))
    /\ Forall (fun tp => (st <= _Topology.oid tp)%nat) (MTID.topologies m).
Proof.
  intros H. rewrite unpack_even by assumption.
  eexists. split; [reflexivity|]. cbn [MTID.topologies].
  assert (E : map _Topology.oid
                  (map (entry_at data st) (seq 0 (List.length data / 2)))
              = seq st (List.length data / 2)).
  { rewrite map_map. cbn [entry_at _Topology.oid].
    rewrite seq_from. f_equal. lia. }
  split; [exact E|]. split.
  - rewrite E. apply seq_NoDup.
  - apply Forall_forall. intros tp Hin.
    apply (in_map _Topology.oid) in Hin. rewrite E in Hin.
    apply in_seq in Hin. lia.
Qed.

Lemma unpack_creates_fresh_entries_witness :
  Nat.even (List.length [x10; x05; x10; x05]) = true
  /\ exists m,
       MTID.unpack [x10; x05; x10; x05] 4%nat
       = (Return m, (4 + List.length [x10; x05; x10; x05] / 2)%nat)
       /\ map _Topology.oid (MTID.topologies m)
          = seq 4 (List.length [x10; x05; x10; x05] / 2)
       /\ NoDup (map _Topology.oid (MTID.topologies m))
       /\ Forall (fun tp => (4 <= _Topology.oid tp)%nat) (MTID.topologies m).
Proof.
  split; [reflexivity|].
  apply (unpack_creates_fresh_entries [x10; x05; x10; x05] 4%nat).
  reflexivity.
Defined.

(** ** Length *)

(** X6: [len] of a decoded field is the length of the payload, twice the
    number of entries; this holds for the empty payload too. *)
Theorem len_of_decoded_field (data : bytes) (st : nat) :
  Nat.even (List.length data) = true ->
  exists m st',
    MTID.unpack data st = (Return m, st')
    /\ MTID.__len__ m = Len (List.length data)
    /\ MTID.__len__ m = Len (2 * List.length (MTID.topologies m)).
Proof.
  intros H. rewrite unpack_even by assumption.
  do 2 eexists. split; [reflexivity|]. split; [reflexivity|].
  cbn [MTID.topologies MTID.__len__ MTID._packed].
  rewrite length_map, length_seq. f_equal.
  apply even_length_half. assumption.
Qed.

Lemma len_of_decoded_field_witness :
  Nat.even (List.length [x10; x05; x2f; xff]) = true
  /\ exists m st',
       MTID.unpack [x10; x05; x2f; xff] 0%nat = (Return m, st')
       /\ MTID.__len__ m = Len (List.length [x10; x05; x2f; xff])
       /\ MTID.__len__ m = Len (2 * List.length (MTID.topologies m)).
Proof.
  split; [reflexivity|].
  apply (len_of_decoded_field [x10; x05; x2f; xff] 0%nat). reflexivity.
Defined.


(** ** Strings *)

Lemma str_append_assoc (s1 s2 s3 : string) :
  ((s1 ++ s2) ++ s3 = s1 ++ (s2 ++ s3))%string.
Proof.
  induction s1 as [|c s1 IH]; simpl; [reflexivity | f_equal; exact IH].
Qed.

Lemma str_length_append (s1 s2 : string) :
  String.length (s1 ++ s2) = (String.length s1 + String.length s2)%nat.
Proof.
  induction s1 as [|c s1 IH]; simpl; [reflexivity | f_equal; exact IH].
Qed.

Lemma substring_all (s : string) : substring 0 (String.length s) s = s.
Proof.
  induction s as [|c s IH]; simpl; [reflexivity | f_equal; exact IH].
Qed.

Lemma substring_skip (s t : string) (n : nat) :
  substring (String.length s) n (s ++ t) = substring 0 n t.
Proof.
  induction s as [|c s IH]; simpl; [reflexivity | exact IH].
Qed.

Lemma str_from_skip (s t : string) :
  str_from (String.length s) (s ++ t) = t.
Proof.
  unfold str_from. rewrite str_length_append, substring_skip.
  replace (String.length s + String.length t - String.length s)%nat
    with (String.length t) by lia.
  apply substring_all.
Qed.

Lemma str_last_app (s t : string) (n : nat) :
  String.length t = n -> str_last n (s ++ t) = t.
Proof.
  intros H. unfold str_last. rewrite str_length_append, H.
  replace (String.length s + n - n)%nat with (String.length s) by lia.
  apply str_from_skip.
Qed.

(** ** Rendering of entries with more than four bits *)

Lemma bits_text_low_nibble (n : Z) :
  0 <= n ->
  str_last 4 ("0000" ++ str_from 2 (bin n)) = bits4_spec n.
Proof.
  intros H. destruct n as [|p|p]; [reflexivity| |lia]. clear H.
  unfold bin. rewrite (str_from_skip "0b").
  do 4 (try destruct p as [p|p|]); try reflexivity;
    cbn [bin_digits]; rewrite !str_append_assoc;
    rewrite <- (str_append_assoc "0000");
    rewrite str_last_app by reflexivity; reflexivity.
Qed.

Lemma bits4_spec_mod (n : Z) : bits4_spec (n mod 16) = bits4_spec n.
Proof.
  unfold bits4_spec. change 16 with (2 ^ 4).
  rewrite !Z.mod_pow2_bits_low by lia. reflexivity.
Qed.

(** X10: For every entry with [bits >= 0], also one built directly with more
    than four bits, [json] shows the four low-order bits of [bits] and
    drops the higher ones; [tid] is printed in full. *)
Theorem json_shows_low_four_bits (tp : _Topology.t) :
  0 <= _Topology.bits tp ->
  _Topology.json tp
  = json_record (bits4_spec (_Topology.bits tp mod 16))
                (format_d (_Topology.tid tp)).
Proof.
  intros H. unfold _Topology.json, json_record.
  rewrite bits_text_low_nibble by assumption.
  rewrite bits4_spec_mod. reflexivity.
Qed.

Lemma json_shows_low_four_bits_witness :
  0 <= _Topology.bits (_Topology.mk 0 0x35 5000)
  /\ _Topology.json (_Topology.mk 0 0x35 5000) = json_record "0101" "5000".
Proof.
  split; [simpl; lia|].
  apply (json_shows_low_four_bits (_Topology.mk 0 0x35 5000)). simpl; lia.
Defined.

(** X11: The structured rendering of a decoded field is determined by the
    payload alone: one record per word, in payload order, with the four
    bits and the twelve bits of the word. *)
Theorem json_of_decoded_field (data : bytes) (st : nat) :
  Nat.even (List.length data) = true ->
  exists m st',
    MTID.unpack data st = (Return m, st')
    /\ MTID.json m
       = ("[" ++ String.concat ", "
                   (map (fun i =>
                           json_record
                             (bits4_spec (Z.shiftr (word_at data i) 12))
                             (format_d (Z.land (word_at data i) 0x0FFF)))
                        (seq 0 (List.length data / 2)))
              ++ "]")%string.
Proof.
  intros H. rewrite unpack_even by assumption.
  do 2 eexists. split; [reflexivity|].
  unfold MTID.json. cbn [MTID.topologies].
  rewrite map_map. do 3 f_equal.
  apply map_ext. intros i. apply json_of_decoded_entry.
Qed.

Lemma json_of_decoded_field_witness :
  Nat.even (List.length [x10; x05; x2f; xff]) = true
  /\ exists m st',
       MTID.unpack [x10; x05; x2f; xff] 9%nat = (Return m, st')
       /\ MTID.json m
          = ("[" ++ json_record "0001" "5" ++ ", "
                 ++ json_record "0010" "4095" ++ "]")%string.
Proof.
  split; [reflexivity|].
  apply (json_of_decoded_field [x10; x05; x2f; xff] 9%nat). reflexivity.
Defined.

(** ** The entries keep the payload *)

Lemma byte_int_inj (a b : byte) : byte_int a = byte_int b -> a = b.
Proof.
  unfold byte_int. intros H. apply N2Z.inj in H.
  pose proof (Byte.of_to_N a) as Ha. rewrite H, Byte.of_to_N in Ha.
  congruence.
Qed.

Lemma be16_inj (h l h' l' : byte) :
  be16 h l = be16 h' l' -> h = h' /\ l = l'.
Proof.
  rewrite !be16_arith. intros H.
  pose proof (byte_int_range h). pose proof (byte_int_range l).
  pose proof (byte_int_range h'). pose proof (byte_int_range l').
  split; apply byte_int_inj; lia.
Qed.

Lemma split_at_12_inj (w w' : Z) :
  Z.shiftr w 12 = Z.shiftr w' 12 ->
  Z.land w 0x0FFF = Z.land w' 0x0FFF ->
  w = w'.
Proof.
  intros H1 H2. rewrite <- (split_at_12 w), <- (split_at_12 w').
  rewrite H1, H2. reflexivity.
Qed.

Lemma unpack_returns_even (data : bytes) (st st' : nat) (m : MTID.t) :
  MTID.unpack data st = (Return m, st') ->
  Nat.even (List.length data) = true.
Proof.
  intros H. destruct (Nat.even (List.length data)) eqn:E; [reflexivity|].
  rewrite unpack_odd in H; [discriminate|].
  unfold Nat.odd. rewrite E. reflexivity.
Qed.

Lemma nth_error_map_seq {A} (f : nat -> A) (n i : nat) :
  (i < n)%nat -> nth_error (map f (seq 0 n)) i = Some (f i).
Proof.
  intros H. rewrite nth_error_map, nth_error_seq.
  destruct (Nat.ltb_spec i n); [reflexivity | lia].
Qed.

(** X4: Two payloads whose decodings carry the same [bits] and [tid] at every
    position are the same payload: decoding loses nothing. *)
Theorem decoded_values_determine_payload
        (d1 d2 : bytes) (st1 st2 s1 s2 : nat) (m1 m2 : MTID.t) :
  MTID.unpack d1 st1 = (Return m1, s1) ->
  MTID.unpack d2 st2 = (Return m2, s2) ->
  map fields (MTID.topologies m1) = map fields (MTID.topologies m2) ->
  d1 = d2.
Proof.
  intros U1 U2 Hf.
  pose proof (unpack_returns_even _ _ _ _ U1) as E1.
  pose proof (unpack_returns_even _ _ _ _ U2) as E2.
  rewrite unpack_even in U1, U2 by assumption.
  injection U1 as <- _. injection U2 as <- _.
  cbn [MTID.topologies] in Hf. rewrite !map_map in Hf.
  change (fst (Nat.divmod (List.length d1) 1 0 1))
    with (List.length d1 / 2)%nat in Hf.
  change (fst (Nat.divmod (List.length d2) 1 0 1))
    with (List.length d2 / 2)%nat in Hf.
  pose proof (even_length_half _ E1) as L1.
  pose proof (even_length_half _ E2) as L2.
  assert (Hh : (List.length d1 / 2 = List.length d2 / 2)%nat).
  { apply (f_equal (@List.length _)) in Hf.
    rewrite !length_map, !length_seq in Hf. exact Hf. }
  apply (nth_ext d1 d2 x00 x00); [lia|].
  intros n Hn.
  assert (Hi : (n / 2 < List.length d1 / 2)%nat).
  { apply Nat.Div0.div_lt_upper_bound; lia. }
  pose proof (f_equal (fun l => nth_error l (n / 2)) Hf) as Hw.
  cbn beta in Hw.
  rewrite nth_error_map_seq in Hw by assumption.
  rewrite <- Hh in Hw. rewrite nth_error_map_seq in Hw by assumption.
  injection Hw as Hb Ht.
  pose proof (split_at_12_inj _ _ Hb Ht) as Hword.
  apply be16_inj in Hword. destruct Hword as [Hhi Hlo].
  pose proof (Nat.div_mod_eq n 2) as Hdm.
  pose proof (Nat.mod_upper_bound n 2) as Hm.
  destruct (n mod 2)%nat as [|[|r]] eqn:Er; [| |lia].
  - replace n with (2 * (n / 2))%nat by lia. exact Hhi.
  - replace n with (2 * (n / 2) + 1)%nat by lia. exact Hlo.
Qed.

Lemma decoded_values_determine_payload_witness :
  MTID.unpack [x10; x05] 0%nat
  = (Return (MTID.mk [_Topology.mk 0 1 5] (Some [x10; x05])), 1%nat)
  /\ MTID.unpack [x10; x05] 7%nat
     = (Return (MTID.mk [_Topology.mk 7 1 5] (Some [x10; x05])), 8%nat)
  /\ map fields [_Topology.mk 0 1 5] = map fields [_Topology.mk 7 1 5]
  /\ [x10; x05] = [x10; x05].
Proof.
  split; [reflexivity|]. split; [reflexivity|]. split; [reflexivity|].
  apply (decoded_values_determine_payload
           [x10; x05] [x10; x05] 0%nat 7%nat 1%nat 8%nat
           (MTID.mk [_Topology.mk 0 1 5] (Some [x10; x05]))
           (MTID.mk [_Topology.mk 7 1 5] (Some [x10; x05])));
    reflexivity.
Defined.

(** ** Equality as a relation *)

Lemma eq_refl_true (a : MTID.t) : MTID.__eq__ a a = true.
Proof. apply eq_iff_same_objects. reflexivity. Qed.

(** X8: [==] on fields is reflexive, symmetric and transitive: a field equals
    itself, with or without raw cache, and the comparison does not depend
    on the order of its operands. *)
Theorem eq_is_an_equivalence (a b c : MTID.t) :
  MTID.__eq__ a a = true
  /\ MTID.__eq__ a b = MTID.__eq__ b a
  /\ implb (MTID.__eq__ a b && MTID.__eq__ b c) (MTID.__eq__ a c) = true.
Proof.
  split; [apply eq_refl_true|]. split.
  - destruct (MTID.__eq__ a b) eqn:E1, (MTID.__eq__ b a) eqn:E2;
      try reflexivity.
    + apply eq_iff_same_objects in E1. symmetry in E1.
      apply eq_iff_same_objects in E1. congruence.
    + apply eq_iff_same_objects in E2. symmetry in E2.
      apply eq_iff_same_objects in E2. congruence.
  - destruct (MTID.__eq__ a b) eqn:E1, (MTID.__eq__ b c) eqn:E2;
      try (destruct (MTID.__eq__ a c); reflexivity).
    apply eq_iff_same_objects in E1, E2.
    assert (E3 : MTID.__eq__ a c = true)
      by (apply eq_iff_same_objects; congruence).
    rewrite E3. reflexivity.
Qed.

(** ** Textual rendering *)

Lemma unhex2_hex2_spec (b : byte) : unhex2 (hex2_spec b) = Some b.
Proof. destruct b; reflexivity. Qed.

Lemma hex2_spec_inj (a b : byte) : hex2_spec a = hex2_spec b -> a = b.
Proof.
  intros H. apply (f_equal unhex2) in H.
  rewrite !unhex2_hex2_spec in H. congruence.
Qed.

Lemma hex_text_cons (b : byte) (p : bytes) :
  String.concat ":" (map hex2_spec (b :: p))
  = match p with
    | [] => hex2_spec b
    | _ :: _ => (hex2_spec b ++ ":" ++ String.concat ":" (map hex2_spec p))%string
    end.
Proof. destruct p; reflexivity. Qed.

Lemma hex_text_inj (p1 : bytes) :
  forall p2,
    String.concat ":" (map hex2_spec p1) = String.concat ":" (map hex2_spec p2) ->
    p1 = p2.
Proof.
  induction p1 as [|a p1 IH]; intros [|b p2] H.
  - reflexivity.
  - rewrite hex_text_cons in H. destruct p2; discriminate H.
  - rewrite hex_text_cons in H. destruct p1; discriminate H.
  - rewrite !hex_text_cons in H.
    destruct p1 as [|a' p1], p2 as [|b' p2].
    + apply hex2_spec_inj in H. congruence.
    + discriminate H.
    + discriminate H.
    + unfold hex2_spec in H at 1 3. cbn [append] in H.
      injection H as H1 H2 H3.
      assert (Hab : a = b).
      { apply hex2_spec_inj. unfold hex2_spec. rewrite H1, H2. reflexivity. }
      rewrite Hab. f_equal. apply IH. exact H3.
Qed.

Lemma hex_text_length (p : bytes) :
  p <> [] ->
  String.length (String.concat ":" (map hex2_spec p))
  = (3 * List.length p - 1)%nat.
Proof.
  induction p as [|b p IH]; intros Hne; [contradiction|].
  rewrite hex_text_cons. destruct p as [|b' p]; [reflexivity|].
  unfold hex2_spec at 1. cbn [append String.length].
  rewrite IH by discriminate. cbn [List.length]. lia.
Qed.

Lemma pack_returns_cache (m : MTID.t) (p : bytes) :
  MTID.pack m = Return p -> MTID._packed m = Some p /\ p <> [].
Proof.
  destruct m as [ts [[|b q]|]]; cbn; intros H; try discriminate.
  injection H as <-. split; [reflexivity | discriminate].
Qed.

(** X12: The text of a field keeps its bytes: two fields with the same text
    pack to the same bytes, so distinct raw caches never share a text. *)
Theorem str_determines_packed_bytes (m1 m2 : MTID.t) (s : string) :
  MTID.__str__ m1 = Return s ->
  MTID.__str__ m2 = Return s ->
  exists p, MTID.pack m1 = Return p /\ MTID.pack m2 = Return p.
Proof.
  rewrite !str_of_pack. intros H1 H2.
  destruct (MTID.pack m1) as [p1|e1]; [|discriminate].
  destruct (MTID.pack m2) as [p2|e2]; [|discriminate].
  cbn in H1, H2. injection H1 as H1. injection H2 as H2.
  exists p1. split; [reflexivity|]. f_equal. symmetry.
  apply hex_text_inj. congruence.
Qed.

Lemma str_determines_packed_bytes_witness :
  MTID.__str__ (MTID.mk [] (Some [x12; xab])) = Return "12:AB"%string
  /\ MTID.__str__ (MTID.mk [_Topology.mk 0 1 0x2AB] (Some [x12; xab]))
     = Return "12:AB"%string
  /\ exists p,
       MTID.pack (MTID.mk [] (Some [x12; xab])) = Return p
       /\ MTID.pack (MTID.mk [_Topology.mk 0 1 0x2AB] (Some [x12; xab]))
          = Return p.
Proof.
  split; [reflexivity|]. split; [reflexivity|].
  apply (str_determines_packed_bytes
           (MTID.mk [] (Some [x12; xab]))
           (MTID.mk [_Topology.mk 0 1 0x2AB] (Some [x12; xab]))
           "12:AB"%string); reflexivity.
Defined.

(** X13: Whenever [pack] returns [n] bytes, the text has [3n - 1] characters:
    two digits per byte and a colon between neighbours, none at the ends. *)
Theorem str_length (m : MTID.t) (p : bytes) :
  MTID.pack m = Return p ->
  exists s,
    MTID.__str__ m = Return s
    /\ String.length s = (3 * List.length p - 1)%nat.
Proof.
  intros H. rewrite str_of_pack, H. cbn.
  eexists. split; [reflexivity|].
  apply hex_text_length. apply (pack_returns_cache m p H).
Qed.

Lemma str_length_witness :
  MTID.pack (MTID.mk [] (Some [x12; x34; xab; xcd]))
  = Return [x12; x34; xab; xcd]
  /\ exists s,
       MTID.__str__ (MTID.mk [] (Some [x12; x34; xab; xcd])) = Return s
       /\ String.length s = (3 * List.length [x12; x34; xab; xcd] - 1)%nat.
Proof.
  split; [reflexivity|].
  apply (str_length (MTID.mk [] (Some [x12; x34; xab; xcd]))
                    [x12; x34; xab; xcd]).
  reflexivity.
Defined.

(** ** Equality and hashing read different attributes *)

(** X9: Two fields holding the same entry objects compare equal whatever
    their raw caches are, while their texts, the values [__hash__]
    hashes, differ as soon as the two caches are different non-empty
    byte strings. *)
Theorem equal_fields_with_different_text
        (ts : list _Topology.t) (p1 p2 : bytes) :
  p1 <> [] -> p2 <> [] -> p1 <> p2 ->
  MTID.__eq__ (MTID.mk ts (Some p1)) (MTID.mk ts (Some p2)) = true
  /\ MTID.__str__ (MTID.mk ts (Some p1))
     <> MTID.__str__ (MTID.mk ts (Some p2)).
Proof.
  intros N1 N2 N12. split.
  - apply eq_iff_same_objects. reflexivity.
  - rewrite !str_of_pack, !pack_nonempty_cache by assumption. cbn.
    intros H. injection H as H. apply hex_text_inj in H. contradiction.
Qed.

Lemma equal_fields_with_different_text_witness :
  [x10; x05] <> [] /\ [x20; x05] <> [] /\ [x10; x05] <> [x20; x05]
  /\ MTID.__eq__ (MTID.mk [] (Some [x10; x05])) (MTID.mk [] (Some [x20; x05]))
     = true
  /\ MTID.__str__ (MTID.mk [] (Some [x10; x05]))
     <> MTID.__str__ (MTID.mk [] (Some [x20; x05])).
Proof.
  split; [discriminate|]. split; [discriminate|]. split; [discriminate|].
  apply (equal_fields_with_different_text [] [x10; x05] [x20; x05]);
    discriminate.
Defined.

(** ** Text and hash of a decoded field *)

(** X14: The text and the hash of a field decoded from a payload of one word
    or more are those of the payload bytes; they do not depend on which
    entry objects the decoding created, so two decodings of one payload
    have the same text and the same hash. *)
Theorem text_and_hash_of_decoded_field
        (hash : string -> Z) (data : bytes) (st : nat) :
  Nat.even (List.length data) = true ->
  (0 < List.length data)%nat ->
  exists m st',
    MTID.unpack data st = (Return m, st')
    /\ MTID.__str__ m = Return (String.concat ":" (map hex2_spec data))
    /\ MTID.__repr__ m = MTID.__str__ m
    /\ MTID.__hash__ hash m
       = Return (hash (String.concat ":" (map hex2_spec data))).
Proof.
  intros H Hpos. rewrite unpack_even by assumption.
  do 2 eexists. split; [reflexivity|].
  assert (Hs : MTID.__str__
                 (MTID.mk (map (entry_at data st)
                               (seq 0 (List.length data / 2)))
                          (Some data))
               = Return (String.concat ":" (map hex2_spec data))).
  { rewrite str_of_pack, pack_nonempty_cache; [reflexivity|].
    destruct data; [simpl in Hpos; lia | discriminate]. }
  split; [exact Hs|]. split; [reflexivity|].
  unfold MTID.__hash__. rewrite Hs. reflexivity.
Qed.

Lemma text_and_hash_of_decoded_field_witness :
  Nat.even (List.length [x12; x34; xab; xcd]) = true
  /\ (0 < List.length [x12; x34; xab; xcd])%nat
  /\ exists m st',
       MTID.unpack [x12; x34; xab; xcd] 2%nat = (Return m, st')
       /\ MTID.__str__ m = Return "12:34:AB:CD"%string
       /\ MTID.__repr__ m = MTID.__str__ m
       /\ MTID.__hash__ (fun s => Z.of_nat (String.length s)) m = Return 11.
Proof.
  split; [reflexivity|]. split; [simpl; lia|].
  apply (text_and_hash_of_decoded_field
           (fun s => Z.of_nat (String.length s)) [x12; x34; xab; xcd] 2%nat);
    [reflexivity | simpl; lia].
Defined.
